(** * demo-golang: the in-memory book store and its request handlers

    A shallow embedding of [main.go].  The process-wide [store]
    (a Go [map[string]Book]) is a [gmap string Book] threaded through the
    handlers; every handler is a function from the request context and the
    store to a response and the store it leaves behind.  Go's [int] is the
    64-bit two's-complement integer, written as [Z] with the wrap-around of
    its arithmetic spelled out. *)

From Stdlib Require Import ZArith Lia Ascii String.
From stdpp Require Import base option list gmap strings fin_maps.

Local Open Scope string_scope.
Local Open Scope Z_scope.

(** ** The data model *)

Record Book := mkBook {
  ID : string;
  Title : string;
  Author : string;
  Year : Z
}.

(** The value a Go map lookup yields for a missing key, and the value a
    fresh [var payload Book] holds. *)
Definition zeroBook : Book := mkBook "" "" "" 0.

Definition with_ID (b : Book) (id : string) : Book :=
  mkBook id (Title b) (Author b) (Year b).
Definition with_Title (b : Book) (t : string) : Book :=
  mkBook (ID b) t (Author b) (Year b).
Definition with_Author (b : Book) (a : string) : Book :=
  mkBook (ID b) (Title b) a (Year b).
Definition with_Year (b : Book) (y : Z) : Book :=
  mkBook (ID b) (Title b) (Author b) y.

(** ** Machine integers *)

Module GoInt.

Definition maxInt : Z := 2 ^ 63 - 1.
Definition minInt : Z := - 2 ^ 63.

Definition inRange (z : Z) : Prop := minInt <= z <= maxInt.

(** The value an [int] holds after an arithmetic result [z]. *)
Definition wrap (z : Z) : Z := (z + 2 ^ 63) mod 2 ^ 64 - 2 ^ 63.

Definition mul (a b : Z) : Z := wrap (a * b).
Definition add (a b : Z) : Z := wrap (a + b).
Definition sub (a b : Z) : Z := wrap (a - b).

End GoInt.

(** ** [strconv.Atoi]

    The standard library's decimal parser for a 64-bit [int]: an optional
    sign, then digits accumulated in a [uint64] with the loop stopping at
    the first overflow.  The handler discards the error and keeps the
    number, so what matters is the number returned on each kind of failure:
    0 on a syntax error, the nearest bound on a range error. *)

Module strconv.

Inductive NumError := ErrSyntax | ErrRange.

Definition maxUint64 : Z := 2 ^ 64 - 1.

Definition digit (ch : ascii) : option Z :=
  let n := Z.of_N (N_of_ascii ch) in
  if (48 <=? n) && (n <=? 57) then Some (n - 48) else None.

Fixpoint parseDigits (s : string) (n : Z) : Z * option NumError :=
  match s with
  | EmptyString => (n, None)
  | String ch s' =>
      match digit ch with
      | None => (0, Some ErrSyntax)
      | Some d =>
          if maxUint64 `div` 10 + 1 <=? n then (maxUint64, Some ErrRange)
          else
            let n1 := n * 10 + d in
            if maxUint64 <? n1 then (maxUint64, Some ErrRange)
            else parseDigits s' n1
      end
  end.

Definition ParseUint (s : string) : Z * option NumError :=
  match s with
  | EmptyString => (0, Some ErrSyntax)
  | _ => parseDigits s 0
  end.

Definition ParseInt (s : string) : Z * option NumError :=
  match s with
  | EmptyString => (0, Some ErrSyntax)
  | String ch s' =>
      let neg := bool_decide (ch = "-"%char) in
      let s1 := if bool_decide (ch = "+"%char) || neg then s' else s in
      let '(un, err) := ParseUint s1 in
      match err with
      | Some ErrSyntax => (0, err)
      | _ =>
          let cutoff := 2 ^ 63 in
          if negb neg && (cutoff <=? un) then (cutoff - 1, Some ErrRange)
          else if neg && (cutoff <? un) then (- cutoff, Some ErrRange)
          else (if neg then - un else un, err)
      end
  end.

Definition Atoi (s : string) : Z * option NumError := ParseInt s.

End strconv.

(** ** Requests and responses *)

(** What a handler reads from its [*fiber.Ctx]: the [:id] path parameter,
    the raw [page] and [limit] query values (empty when the parameter is
    not given) and the outcome of [c.BodyParser(&payload)], [None] standing
    for a parse error. *)
Record Ctx := mkCtx {
  Params_id : string;
  QueryArgs_page : string;
  QueryArgs_limit : string;
  BodyParser : option Book
}.

(** [c.Query(key, defaultValue)]: the default replaces an empty value. *)
Definition Query (value defaultValue : string) : string :=
  if decide (value = "") then defaultValue else value.

Definition StatusOK : Z := 200.
Definition StatusCreated : Z := 201.
Definition StatusNoContent : Z := 204.
Definition StatusBadRequest : Z := 400.
Definition StatusNotFound : Z := 404.

Inductive Response :=
| JSONBook (status : Z) (b : Book)
| JSONPage (status : Z) (data : list Book) (page limit total : Z)
| SendStatus (status : Z)
| NewError (code : Z) (message : string)
| Panic.

Definition isError (r : Response) : Prop :=
  match r with
  | NewError code _ => code = StatusBadRequest \/ code = StatusNotFound
  | _ => False
  end.

(** ** Validation *)

Definition validateBookPayload (b : Book) : option string :=
  if decide (Title b = "") then Some "title is required"
  else if decide (Author b = "") then Some "author is required"
  else None.

(** ** Listing *)

(** [for _, v := range store] visits every entry once, in an order the
    runtime picks; [order] is that order of keys. *)
Definition rangeOrder (store : gmap string Book) (order : list string) : Prop :=
  order ≡ₚ elements (dom store).

Definition rangeValues (store : gmap string Book) (order : list string) : list Book :=
  omap (fun k => store !! k) order.

(** [books[lo:hi]] on a slice whose capacity equals its length: a panic
    unless [0 <= lo <= hi <= len(books)]. *)
Definition slice (books : list Book) (lo hi : Z) : option (list Book) :=
  if (0 <=? lo) && (lo <=? hi) && (hi <=? Z.of_nat (length books))
  then Some (take (Z.to_nat (hi - lo)) (drop (Z.to_nat lo) books))
  else None.

(** Lines 67-97, from the two parsed numbers on. *)
Definition listPage (page limit : Z) (books : list Book) : Response :=
  let page := if page <? 1 then 1 else page in
  let limit := if limit <? 1 then 50 else limit in
  let len := Z.of_nat (length books) in
  let start := GoInt.mul (GoInt.sub page 1) limit in
  let start := if len <? start then len else start in
  let end_ := GoInt.add start limit in
  let end_ := if len <? end_ then len else end_ in
  match slice books start end_ with
  | Some paged => JSONPage StatusOK paged page limit len
  | None => Panic
  end.

Definition getAllBooks (c : Ctx) (order : list string)
    (store : gmap string Book) : Response :=
  let page := (strconv.Atoi (Query (QueryArgs_page c) "1")).1 in
  let limit := (strconv.Atoi (Query (QueryArgs_limit c) "50")).1 in
  listPage page limit (rangeValues store order).

(** ** Single-record handlers *)

Definition getBookByID (c : Ctx) (store : gmap string Book) : Response :=
  let id := Params_id c in
  match store !! id with
  | None => NewError StatusNotFound "book not found"
  | Some b => JSONBook StatusOK b
  end.

(** [newid] is the string [uuid.New().String()] returns for this call. *)
Definition createBook (c : Ctx) (newid : string) (store : gmap string Book)
    : Response * gmap string Book :=
  match BodyParser c with
  | None => (NewError StatusBadRequest "invalid JSON body", store)
  | Some payload =>
      match validateBookPayload payload with
      | Some err => (NewError StatusBadRequest err, store)
      | None =>
          let payload := with_ID payload newid in
          (JSONBook StatusCreated payload, <[ID payload := payload]> store)
      end
  end.

(** [updateBook] takes the lock twice.  The first section (lines 158-160)
    only tests for the key. *)
Definition updateBook_exists (c : Ctx) (store : gmap string Book) : bool :=
  bool_decide (is_Some (store !! Params_id c)).

(** The second section (lines 170-182) reads the record again, without a
    test, merges and writes it back. *)
Definition updateBook_merge (c : Ctx) (payload : Book)
    (store : gmap string Book) : Book * gmap string Book :=
  let id := Params_id c in
  let existing := default zeroBook (store !! id) in
  let existing :=
    if decide (Title payload = "") then existing
    else with_Title existing (Title payload) in
  let existing :=
    if decide (Author payload = "") then existing
    else with_Author existing (Author payload) in
  let existing :=
    if decide (Year payload = 0) then existing
    else with_Year existing (Year payload) in
  (existing, <[id := existing]> store).

(** The handler, with [between] the effect of whatever other requests do to
    the store after the first section has released the lock and before the
    second one takes it. *)
Definition updateBook_with (between : gmap string Book -> gmap string Book)
    (c : Ctx) (store : gmap string Book) : Response * gmap string Book :=
  if negb (updateBook_exists c store)
  then (NewError StatusNotFound "book not found", store)
  else
    match BodyParser c with
    | None => (NewError StatusBadRequest "invalid JSON body", store)
    | Some payload =>
        let '(existing, store') := updateBook_merge c payload (between store) in
        (JSONBook StatusOK existing, store')
    end.

(** The handler running alone. *)
Definition updateBook (c : Ctx) (store : gmap string Book)
    : Response * gmap string Book :=
  updateBook_with id c store.

Definition replaceBook (c : Ctx) (store : gmap string Book)
    : Response * gmap string Book :=
  let id := Params_id c in
  match BodyParser c with
  | None => (NewError StatusBadRequest "invalid JSON body", store)
  | Some payload =>
      match validateBookPayload payload with
      | Some err => (NewError StatusBadRequest err, store)
      | None =>
          let payload := with_ID payload id in
          match store !! id with
          | None => (NewError StatusNotFound "book not found", store)
          | Some _ => (JSONBook StatusOK payload, <[id := payload]> store)
          end
      end
  end.

Definition deleteBook (c : Ctx) (store : gmap string Book)
    : Response * gmap string Book :=
  let id := Params_id c in
  match store !! id with
  | None => (NewError StatusNotFound "book not found", store)
  | Some _ => (SendStatus StatusNoContent, delete id store)
  end.

(** [id1] and [id2] are the two identifiers [uuid.New().String()] returns. *)
Definition seedData (id1 id2 : string) (store : gmap string Book)
    : gmap string Book :=
  let b1 := mkBook id1 "Clean Architecture" "Robert C. Martin" 2017 in
  let b2 := mkBook id2 "The Go Programming Language" "Alan A. A. Donovan" 2015 in
  <[ID b2 := b2]> (<[ID b1 := b1]> store).

(** ** The store invariant *)

Definition BookOk (k : string) (b : Book) : Prop :=
  ID b = k /\ ID b <> "" /\ Title b <> "" /\ Author b <> "".

Definition StoreInv (store : gmap string Book) : Prop :=
  map_Forall BookOk store.

(** ** The router

    One constructor per route of the [/api/books] group that writes to the
    store, with what the handler consumes. *)

Inductive Request :=
| Create (c : Ctx) (newid : string)
| PartialUpdate (c : Ctx)
| Replace (c : Ctx)
| Delete (c : Ctx).

Definition handle (r : Request) (store : gmap string Book)
    : Response * gmap string Book :=
  match r with
  | Create c newid => createBook c newid store
  | PartialUpdate c => updateBook c store
  | Replace c => replaceBook c store
  | Delete c => deleteBook c store
  end.



(** ** What reaches the client

    A handler that returns an error leaves the answer to the application's
    [ErrorHandler] (lines 249-255): a [*fiber.Error] is answered with its
    own code and message, any other error with 500 and a fixed message.
    The [recover] middleware hands a panic on as such an other error. *)

Definition StatusInternalServerError : Z := 500.

Inductive HandlerError :=
| FiberError (code : Z) (message : string)
| OtherError.

Definition ErrorHandler (err : HandlerError) : Z * string :=
  match err with
  | FiberError code message => (code, message)
  | OtherError => (StatusInternalServerError, "internal server error")
  end.

(** The status sent and, for an error, the text of the [error] field. *)
Definition wire (r : Response) : Z * option string :=
  match r with
  | JSONBook status _ => (status, None)
  | JSONPage status _ _ _ _ => (status, None)
  | SendStatus status => (status, None)
  | NewError code message =>
      let '(status, text) := ErrorHandler (FiberError code message) in
      (status, Some text)
  | Panic =>
      let '(status, text) := ErrorHandler OtherError in
      (status, Some text)
  end.

(** * Properties *)

(** ** Integers in range are not changed by wrapping *)

Lemma wrap_inRange (z : Z) : GoInt.inRange z -> GoInt.wrap z = z.
Proof.
  unfold GoInt.inRange, GoInt.wrap, GoInt.minInt, GoInt.maxInt.
  intros Hz. rewrite Z.mod_small; lia.
Qed.

Lemma slice_take_drop (books : list Book) (lo hi : Z) :
  0 <= lo <= hi -> hi <= Z.of_nat (length books) ->
  slice books lo hi = Some (take (Z.to_nat (hi - lo)) (drop (Z.to_nat lo) books)).
Proof.
  intros [Hlo Hhi] Hlen. unfold slice.
  destruct (Z.leb_spec 0 lo); [|lia].
  destruct (Z.leb_spec lo hi); [|lia].
  destruct (Z.leb_spec hi (Z.of_nat (length books))); [|lia].
  reflexivity.
Qed.

Lemma slice_negative (books : list Book) (lo hi : Z) :
  lo < 0 -> slice books lo hi = None.
Proof.
  intros Hlo. unfold slice.
  destruct (Z.leb_spec 0 lo); [lia|]. reflexivity.
Qed.

(** ** Listing: the page that is cut when nothing overflows *)

Lemma listPage_in_range (page limit : Z) (books : list Book) :
  1 <= page -> 1 <= limit -> page * limit <= GoInt.maxInt ->
  listPage page limit books =
    JSONPage StatusOK
      (take (Z.to_nat limit) (drop (Z.to_nat ((page - 1) * limit)) books))
      page limit (Z.of_nat (length books)).
Proof.
  intros Hp Hl Hpl. unfold listPage.
  destruct (Z.ltb_spec page 1) as [?|_]; [lia|].
  destruct (Z.ltb_spec limit 1) as [?|_]; [lia|].
  assert (Hs : 0 <= (page - 1) * limit <= page * limit - limit) by nia.
  unfold GoInt.mul, GoInt.sub, GoInt.add.
  rewrite (wrap_inRange (page - 1)) by (unfold GoInt.inRange, GoInt.minInt, GoInt.maxInt in *; nia).
  rewrite (wrap_inRange ((page - 1) * limit)) by (unfold GoInt.inRange, GoInt.minInt, GoInt.maxInt in *; lia).
  set (start0 := (page - 1) * limit) in *.
  set (len := Z.of_nat (length books)).
  assert (Hlen : 0 <= len) by (subst len; lia).
  destruct (Z.ltb_spec len start0) as [Hgt|Hle].
  - rewrite (wrap_inRange (len + limit)) by (unfold GoInt.inRange, GoInt.minInt, GoInt.maxInt in *; lia).
    destruct (Z.ltb_spec len (len + limit)) as [_|?]; [|lia].
    rewrite slice_take_drop by (subst len; lia).
    rewrite Z.sub_diag. simpl take.
    rewrite (drop_ge books (Z.to_nat start0)) by (subst len; lia).
    by rewrite take_nil.
  - rewrite (wrap_inRange (start0 + limit)) by (unfold GoInt.inRange, GoInt.minInt, GoInt.maxInt in *; lia).
    destruct (Z.ltb_spec len (start0 + limit)) as [Hend|Hend].
    + rewrite slice_take_drop by (subst len; lia).
      rewrite !take_ge; [done| |]; rewrite length_drop; subst len; lia.
    + rewrite slice_take_drop by (subst len; lia).
      by replace (start0 + limit - start0) with limit by lia.
Qed.

(** The snapshot holds one record per key of the store. *)
Lemma rangeOrder_elem (store : gmap string Book) (order : list string) (k : string) :
  rangeOrder store order -> k ∈ order <-> is_Some (store !! k).
Proof.
  unfold rangeOrder. intros ->.
  rewrite elem_of_elements. apply elem_of_dom.
Qed.

Lemma rangeValues_length (store : gmap string Book) (order : list string) :
  rangeOrder store order ->
  length (rangeValues store order) = size store.
Proof.
  intros Hord.
  assert (Hlen : length order = size store).
  { unfold rangeOrder in Hord. rewrite Hord.
    change (length (elements (dom store))) with (size (dom store)).
    apply size_dom. }
  rewrite <- Hlen.
  assert (Hall : forall k, k ∈ order -> is_Some (store !! k)).
  { intros k Hk. by apply (rangeOrder_elem store order k Hord). }
  clear Hord Hlen. unfold rangeValues.
  induction order as [|k order IH]; [done|].
  simpl. destruct (Hall k) as [b Hb]; [left|].
  rewrite Hb. simpl. f_equal. apply IH.
  intros k' Hk'. apply Hall. by right.
Qed.

Lemma rangeValues_elem (store : gmap string Book) (order : list string) (b : Book) :
  rangeOrder store order ->
  b ∈ rangeValues store order <-> exists k, store !! k = Some b.
Proof.
  intros Hord. unfold rangeValues. rewrite list_elem_of_omap. split.
  - intros (k & _ & Hk). eauto.
  - intros (k & Hk). exists k. split; [|done].
    apply (rangeOrder_elem store order k Hord). eauto.
Qed.

Lemma listPage_outcome (page limit : Z) (books : list Book) :
  listPage page limit books = Panic \/
  exists data,
    listPage page limit books =
      JSONPage StatusOK data (if page <? 1 then 1 else page)
        (if limit <? 1 then 50 else limit) (Z.of_nat (length books)).
Proof.
  unfold listPage.
  match goal with |- context [slice ?b ?lo ?hi] => destruct (slice b lo hi) as [paged|] end.
  - right. by exists paged.
  - by left.
Qed.

(** C1, as the code has it: [page] defaults to 1 and a parsed page below 1
    becomes 1; [limit] defaults to 50 and a parsed limit below 1 becomes 50,
    the default, not 1.  The handler never answers with an error value: it
    reports exactly these two numbers with status 200 whenever it answers,
    and it does answer whenever page times limit fits in an [int]. *)
Theorem getAllBooks_page_limit (c : Ctx) (order : list string)
    (store : gmap string Book) :
  let page := (strconv.Atoi (Query (QueryArgs_page c) "1")).1 in
  let limit := (strconv.Atoi (Query (QueryArgs_limit c) "50")).1 in
  exists p l : Z,
    (QueryArgs_page c = "" -> p = 1) /\
    (QueryArgs_limit c = "" -> l = 50) /\
    (page < 1 -> p = 1) /\ (1 <= page -> p = page) /\
    (limit < 1 -> l = 50) /\ (1 <= limit -> l = limit) /\
    (getAllBooks c order store = Panic \/
     exists data total,
       getAllBooks c order store = JSONPage StatusOK data p l total) /\
    (p * l <= GoInt.maxInt ->
     exists data total,
       getAllBooks c order store = JSONPage StatusOK data p l total).
Proof.
  intros page limit.
  exists (if page <? 1 then 1 else page), (if limit <? 1 then 50 else limit).
  split; [|split].
  { intros Hq. subst page. rewrite Hq. reflexivity. }
  { intros Hq. subst limit. rewrite Hq. reflexivity. }
  split; [|split; [|split; [|split; [|split]]]].
  - intros H. by destruct (Z.ltb_spec page 1); [|lia].
  - intros H. by destruct (Z.ltb_spec page 1); [lia|].
  - intros H. by destruct (Z.ltb_spec limit 1); [|lia].
  - intros H. by destruct (Z.ltb_spec limit 1); [lia|].
  - unfold getAllBooks. fold page limit.
    destruct (listPage_outcome page limit (rangeValues store order)) as [HP|[data HD]].
    + by left.
    + right. eauto.
  - intros Hfit. unfold getAllBooks. fold page limit.
    set (p := if page <? 1 then 1 else page) in *.
    set (l := if limit <? 1 then 50 else limit) in *.
    assert (Hp : 1 <= p) by (subst p; destruct (Z.ltb_spec page 1); lia).
    assert (Hl : 1 <= l) by (subst l; destruct (Z.ltb_spec limit 1); lia).
    assert (Heq : listPage page limit (rangeValues store order) =
                  listPage p l (rangeValues store order)).
    { unfold listPage. fold p l.
      destruct (Z.ltb_spec p 1); [lia|]. destruct (Z.ltb_spec l 1); [lia|].
      reflexivity. }
    rewrite Heq, listPage_in_range by done. eauto.
Qed.

(** C1, as the specification words it (a floor of 1 for both numbers, and
    an answer on every request), does not hold: [limit=0] is answered with
    a limit of 50. *)
Lemma getAllBooks_limit_floor_counterexample :
  ~ (forall (c : Ctx) (order : list string) (store : gmap string Book),
       let page := (strconv.Atoi (Query (QueryArgs_page c) "1")).1 in
       let limit := (strconv.Atoi (Query (QueryArgs_limit c) "50")).1 in
       exists data total,
         getAllBooks c order store =
           JSONPage StatusOK data (Z.max 1 page) (Z.max 1 limit) total).
Proof.
  intros H.
  destruct (H (mkCtx "" "" "0" None) [] ∅) as (data & total & Heq).
  vm_compute in Heq. discriminate Heq.
Qed.

(** C2 at the request [?page=4611686018427387905&limit=2]: both numbers are
    at least 1, the product [(page-1)*limit] wraps to the least [int], no
    clamp applies to a negative bound, and the slice expression panics
    whatever the store holds. *)
Theorem getAllBooks_overflow_panics (order : list string)
    (store : gmap string Book) :
  getAllBooks (mkCtx "" "4611686018427387905" "2" None) order store = Panic.
Proof.
  unfold getAllBooks.
  replace (strconv.Atoi (Query (QueryArgs_page (mkCtx "" "4611686018427387905" "2" None)) "1")).1
    with 4611686018427387905 by (vm_compute; reflexivity).
  replace (strconv.Atoi (Query (QueryArgs_limit (mkCtx "" "4611686018427387905" "2" None)) "50")).1
    with 2 by (vm_compute; reflexivity).
  generalize (rangeValues store order). intros books.
  unfold listPage.
  replace (4611686018427387905 <? 1) with false by (vm_compute; reflexivity).
  replace (2 <? 1) with false by (vm_compute; reflexivity).
  replace (GoInt.mul (GoInt.sub 4611686018427387905 1) 2) with GoInt.minInt
    by (vm_compute; reflexivity).
  destruct (Z.ltb_spec (Z.of_nat (length books)) GoInt.minInt) as [Hlt|_].
  { unfold GoInt.minInt in Hlt. lia. }
  rewrite slice_negative; [done|]. unfold GoInt.minInt. lia.
Qed.

(** The same overflow on the seeded store with [?page=99999999999999999999]
    and no limit: [Atoi] saturates at the greatest [int], and
    [(page-1)*50] wraps to -100. *)
Example getAllBooks_saturated_page_panics :
  getAllBooks (mkCtx "" "99999999999999999999" "" None) ["id1"; "id2"]
    (seedData "id1" "id2" ∅) = Panic.
Proof. vm_compute. reflexivity. Qed.

(** Away from overflow the page is the stated window of the snapshot, at
    most [limit] long, and the total is the size of the store. *)
Lemma listPage_window (page limit : Z) (order : list string)
    (store : gmap string Book) :
  rangeOrder store order ->
  1 <= page -> 1 <= limit -> page * limit <= GoInt.maxInt ->
  let books := rangeValues store order in
  let data := take (Z.to_nat limit) (drop (Z.to_nat ((page - 1) * limit)) books) in
  listPage page limit books =
    JSONPage StatusOK data page limit (Z.of_nat (size store)) /\
  Z.of_nat (length data) <= limit /\
  exists before after : list Book, books = (before ++ data ++ after)%list /\
    length before = Nat.min (Z.to_nat ((page - 1) * limit)) (length books).
Proof.
  intros Hord Hp Hl Hfit books data.
  split; [|split].
  - rewrite listPage_in_range by done.
    subst books. by rewrite rangeValues_length.
  - subst data. rewrite length_take. lia.
  - exists (take (Z.to_nat ((page - 1) * limit)) books),
      (drop (Z.to_nat limit) (drop (Z.to_nat ((page - 1) * limit)) books)).
    split.
    + subst data. by rewrite !take_drop.
    + by rewrite length_take.
Qed.

(** ** Validation *)

Lemma validateBookPayload_None (b : Book) :
  validateBookPayload b = None <-> Title b <> "" /\ Author b <> "".
Proof.
  unfold validateBookPayload.
  destruct (decide (Title b = "")), (decide (Author b = ""));
    intuition congruence.
Qed.

Lemma validateBookPayload_Some (b : Book) (msg : string) :
  validateBookPayload b = Some msg ->
  (Title b = "" /\ msg = "title is required") \/
  (Title b <> "" /\ Author b = "" /\ msg = "author is required").
Proof.
  unfold validateBookPayload.
  destruct (decide (Title b = "")), (decide (Author b = ""));
    intros [= <-]; intuition congruence.
Qed.

(** C3: validation rejects a payload exactly when its title or its author is
    empty, with a message naming the missing field; [createBook] and
    [replaceBook] answer such a payload with 400 and that message and leave
    the store as it was; [updateBook] does not validate: on an existing id
    it answers 200 whatever the title and author of the body. *)
Theorem validation_where_applied (c : Ctx) (payload : Book) (newid : string)
    (store : gmap string Book) :
  BodyParser c = Some payload ->
  (is_Some (validateBookPayload payload) <->
     Title payload = "" \/ Author payload = "") /\
  (Title payload = "" \/ Author payload = "" ->
     exists msg,
       (msg = "title is required" \/ msg = "author is required") /\
       validateBookPayload payload = Some msg /\
       createBook c newid store = (NewError StatusBadRequest msg, store) /\
       replaceBook c store = (NewError StatusBadRequest msg, store)) /\
  (is_Some (store !! Params_id c) ->
     exists merged store',
       updateBook c store = (JSONBook StatusOK merged, store')).
Proof.
  intros Hbody. split; [|split].
  - split.
    + intros [msg Hval].
      destruct (validateBookPayload_Some _ _ Hval); intuition.
    + intros Hempty.
      destruct (validateBookPayload payload) eqn:Hval; [by eexists|].
      apply validateBookPayload_None in Hval. intuition.
  - intros Hempty.
    destruct (validateBookPayload payload) as [msg|] eqn:Hval.
    + exists msg. split; [|split; [done|split]].
      * destruct (validateBookPayload_Some _ _ Hval); intuition.
      * unfold createBook. by rewrite Hbody, Hval.
      * unfold replaceBook. by rewrite Hbody, Hval.
    + apply validateBookPayload_None in Hval. intuition.
  - intros Hex. unfold updateBook, updateBook_with, updateBook_exists.
    rewrite bool_decide_eq_true_2 by done. simpl. rewrite Hbody.
    destruct (updateBook_merge c payload store) as [existing store'] eqn:Hm.
    eauto.
Qed.

Lemma validation_where_applied_witness :
  let c := mkCtx "k" "" "" (Some (mkBook "" "" "B" 0)) in
  let store : gmap string Book := {[ "k" := mkBook "k" "A" "B" 5 ]} in
  createBook c "u" store = (NewError StatusBadRequest "title is required", store) /\
  replaceBook c store = (NewError StatusBadRequest "title is required", store) /\
  exists merged store', updateBook c store = (JSONBook StatusOK merged, store').
Proof.
  intros c store.
  destruct (validation_where_applied c (mkBook "" "" "B" 0) "u" store eq_refl)
    as (_ & Hrej & Hupd).
  destruct Hrej as (msg & _ & Hval & Hc & Hr); [by left|].
  assert (msg = "title is required") as -> by (vm_compute in Hval; congruence).
  split; [exact Hc|split; [exact Hr|]].
  apply Hupd. exists (mkBook "k" "A" "B" 5). reflexivity.
Defined.

(** ** Partial update *)

Lemma updateBook_exists_true (c : Ctx) (store : gmap string Book) :
  updateBook_exists c store = true <-> is_Some (store !! Params_id c).
Proof. unfold updateBook_exists. apply bool_decide_eq_true. Qed.

Lemma updateBook_exists_false (c : Ctx) (store : gmap string Book) :
  updateBook_exists c store = false <-> store !! Params_id c = None.
Proof.
  unfold updateBook_exists. rewrite bool_decide_eq_false.
  by rewrite eq_None_not_Some.
Qed.

Lemma updateBook_merge_fields (c : Ctx) (payload old : Book)
    (store : gmap string Book) :
  store !! Params_id c = Some old ->
  let merged := (updateBook_merge c payload store).1 in
  ID merged = ID old /\
  Title merged = (if decide (Title payload = "") then Title old else Title payload) /\
  Author merged = (if decide (Author payload = "") then Author old else Author payload) /\
  Year merged = (if decide (Year payload = 0) then Year old else Year payload).
Proof.
  intros Hold. unfold updateBook_merge. rewrite Hold. simpl.
  destruct (decide (Title payload = "")), (decide (Author payload = "")),
    (decide (Year payload = 0)); done.
Qed.

Lemma updateBook_merge_store (c : Ctx) (payload : Book)
    (store : gmap string Book) :
  (updateBook_merge c payload store).2 =
    <[Params_id c := (updateBook_merge c payload store).1]> store.
Proof. reflexivity. Qed.

Lemma updateBook_found (c : Ctx) (payload : Book) (store : gmap string Book) :
  BodyParser c = Some payload ->
  is_Some (store !! Params_id c) ->
  updateBook c store =
    (JSONBook StatusOK (updateBook_merge c payload store).1,
     <[Params_id c := (updateBook_merge c payload store).1]> store).
Proof.
  intros Hbody Hex. unfold updateBook, updateBook_with.
  rewrite (proj2 (updateBook_exists_true c store)) by done.
  simpl. rewrite Hbody. reflexivity.
Qed.

(** C4: on an existing id [updateBook] answers 200 with the merged record
    and stores it under the same key; the merged record takes [title],
    [author] and [year] from the body where the body's value is non-empty
    (non-zero for the year) and from the stored record otherwise, keeps the
    stored [id], and no other key of the store changes. *)
Theorem updateBook_merges (c : Ctx) (payload old : Book)
    (store : gmap string Book) :
  BodyParser c = Some payload ->
  store !! Params_id c = Some old ->
  exists merged,
    updateBook c store =
      (JSONBook StatusOK merged, <[Params_id c := merged]> store) /\
    ID merged = ID old /\
    (Title payload <> "" -> Title merged = Title payload) /\
    (Title payload = "" -> Title merged = Title old) /\
    (Author payload <> "" -> Author merged = Author payload) /\
    (Author payload = "" -> Author merged = Author old) /\
    (Year payload <> 0 -> Year merged = Year payload) /\
    (Year payload = 0 -> Year merged = Year old) /\
    (forall k, k <> Params_id c ->
       (updateBook c store).2 !! k = store !! k).
Proof.
  intros Hbody Hold.
  exists (updateBook_merge c payload store).1.
  destruct (updateBook_merge_fields c payload old store Hold)
    as (HID & HT & HA & HY).
  assert (Hrun := updateBook_found c payload store Hbody (ex_intro _ old Hold)).
  split; [exact Hrun|]. split; [exact HID|].
  repeat split.
  - intros H. rewrite HT. by destruct (decide (Title payload = "")).
  - intros H. rewrite HT. by destruct (decide (Title payload = "")).
  - intros H. rewrite HA. by destruct (decide (Author payload = "")).
  - intros H. rewrite HA. by destruct (decide (Author payload = "")).
  - intros H. rewrite HY. by destruct (decide (Year payload = 0)).
  - intros H. rewrite HY. by destruct (decide (Year payload = 0)).
  - intros k Hk. rewrite Hrun. simpl. by rewrite lookup_insert_ne.
Qed.

(** The example of the specification: a body that gives only the title
    [X], applied to the stored record with title [A], author [B], year 5. *)
Lemma updateBook_merges_witness :
  let c := mkCtx "k" "" "" (Some (mkBook "" "X" "" 0)) in
  let store : gmap string Book := {[ "k" := mkBook "k" "A" "B" 5 ]} in
  updateBook c store =
    (JSONBook StatusOK (mkBook "k" "X" "B" 5),
     <["k" := mkBook "k" "X" "B" 5]> store).
Proof.
  intros c store.
  destruct (updateBook_merges c (mkBook "" "X" "" 0) (mkBook "k" "A" "B" 5)
              store eq_refl eq_refl)
    as (merged & Hrun & HID & HT & _ & _ & HA & _ & HY & _).
  assert (merged = mkBook "k" "X" "B" 5) as ->.
  { destruct merged as [i t a y]. simpl in *.
    rewrite HID, HT, HA, HY by done. reflexivity. }
  exact Hrun.
Defined.

(** ** Replace *)

(** C6: on an existing id and a valid body, [replaceBook] succeeds, and
    running it a second time on the store it left gives the same answer and
    the same store. *)
Theorem replaceBook_idempotent (c : Ctx) (payload : Book)
    (store : gmap string Book) :
  BodyParser c = Some payload ->
  validateBookPayload payload = None ->
  is_Some (store !! Params_id c) ->
  let stored := with_ID payload (Params_id c) in
  replaceBook c store =
    (JSONBook StatusOK stored, <[Params_id c := stored]> store) /\
  replaceBook c (replaceBook c store).2 = replaceBook c store.
Proof.
  intros Hbody Hval [old Hold] stored.
  assert (Hrun : replaceBook c store =
    (JSONBook StatusOK stored, <[Params_id c := stored]> store)).
  { unfold replaceBook. by rewrite Hbody, Hval, Hold. }
  split; [exact Hrun|].
  rewrite Hrun. simpl. unfold replaceBook.
  rewrite Hbody, Hval, lookup_insert_eq. fold stored.
  by rewrite insert_insert_eq.
Qed.

Lemma replaceBook_idempotent_witness :
  let c := mkCtx "k" "" "" (Some (mkBook "" "X" "Y" 7)) in
  let store : gmap string Book := {[ "k" := mkBook "k" "A" "B" 5 ]} in
  replaceBook c store =
    (JSONBook StatusOK (mkBook "k" "X" "Y" 7), <["k" := mkBook "k" "X" "Y" 7]> store) /\
  replaceBook c (replaceBook c store).2 = replaceBook c store.
Proof.
  intros c store.
  apply (replaceBook_idempotent c (mkBook "" "X" "Y" 7) store eq_refl eq_refl).
  exists (mkBook "k" "A" "B" 5). reflexivity.
Defined.

(** ** Create, get, delete *)

(** C7: a valid body is created with status 201 under the freshly assigned
    id, and [getBookByID] at that id on the resulting store answers 200 with
    a record that has the body's title, author and year and the new id. *)
Theorem createBook_then_getBookByID (c c' : Ctx) (payload : Book)
    (newid : string) (store : gmap string Book) :
  BodyParser c = Some payload ->
  validateBookPayload payload = None ->
  exists created store',
    createBook c newid store = (JSONBook StatusCreated created, store') /\
    ID created = newid /\
    (Params_id c' = ID created ->
       getBookByID c' store' = JSONBook StatusOK created) /\
    Title created = Title payload /\
    Author created = Author payload /\
    Year created = Year payload.
Proof.
  intros Hbody Hval.
  exists (with_ID payload newid), (<[newid := with_ID payload newid]> store).
  split; [|split; [done|split; [|done]]].
  - unfold createBook. by rewrite Hbody, Hval.
  - simpl. intros Hid. unfold getBookByID.
    by rewrite Hid, lookup_insert_eq.
Qed.

Lemma createBook_then_getBookByID_witness :
  let c := mkCtx "" "" "" (Some (mkBook "" "T" "A" 2020)) in
  let c' := mkCtx "u1" "" "" None in
  exists store',
    createBook c "u1" ∅ = (JSONBook StatusCreated (mkBook "u1" "T" "A" 2020), store') /\
    getBookByID c' store' = JSONBook StatusOK (mkBook "u1" "T" "A" 2020).
Proof.
  intros c c'.
  destruct (createBook_then_getBookByID c c' (mkBook "" "T" "A" 2020) "u1" ∅
              eq_refl eq_refl)
    as (created & store' & Hrun & HID & Hget & HT & HA & HY).
  assert (created = mkBook "u1" "T" "A" 2020) as ->.
  { destruct created as [i t a y]. simpl in *. congruence. }
  exists store'. split; [exact Hrun|]. apply Hget. reflexivity.
Defined.

Lemma deleteBook_NoContent (c : Ctx) (store store' : gmap string Book) :
  deleteBook c store = (SendStatus StatusNoContent, store') <->
  is_Some (store !! Params_id c) /\ store' = delete (Params_id c) store.
Proof.
  unfold deleteBook. destruct (store !! Params_id c) as [b|] eqn:Hb.
  - split.
    + intros [= <-]. eauto.
    + intros [_ ->]. reflexivity.
  - split; [intros [=]|]. intros [[b Hb'] _]. discriminate Hb'.
Qed.

(** C8: after a [deleteBook] that answered 204, [getBookByID] at the same
    id answers 404 "book not found", and every other key of the store holds
    what it held before. *)
Theorem deleteBook_then_getBookByID (c c' : Ctx)
    (store store' : gmap string Book) :
  deleteBook c store = (SendStatus StatusNoContent, store') ->
  Params_id c' = Params_id c ->
  getBookByID c' store' = NewError StatusNotFound "book not found" /\
  (forall k, k <> Params_id c -> store' !! k = store !! k).
Proof.
  intros Hdel Hid. apply deleteBook_NoContent in Hdel as [_ ->]. split.
  - unfold getBookByID. by rewrite Hid, lookup_delete_eq.
  - intros k Hk. by rewrite lookup_delete_ne.
Qed.

Lemma deleteBook_then_getBookByID_witness :
  let c := mkCtx "k" "" "" None in
  let store : gmap string Book :=
    <["j" := mkBook "j" "C" "D" 1]> {[ "k" := mkBook "k" "A" "B" 5 ]} in
  getBookByID c (delete "k" store) = NewError StatusNotFound "book not found" /\
  (forall k, k <> "k" -> delete "k" store !! k = store !! k).
Proof.
  intros c store.
  exact (deleteBook_then_getBookByID c c store (delete "k" store) eq_refl eq_refl).
Defined.

(** ** Error outcomes *)

(** C9: with an id that is not in the store, [replaceBook] answers 400 when
    the body does not parse or fails validation (the body is looked at
    first), while [updateBook] answers 404 whatever the body is, a body
    that does not parse included (the id is looked at first). *)
Theorem error_precedence (c : Ctx) (store : gmap string Book) :
  store !! Params_id c = None ->
  (BodyParser c = None ->
     replaceBook c store = (NewError StatusBadRequest "invalid JSON body", store)) /\
  (forall payload msg,
     BodyParser c = Some payload -> validateBookPayload payload = Some msg ->
     replaceBook c store = (NewError StatusBadRequest msg, store)) /\
  updateBook c store = (NewError StatusNotFound "book not found", store).
Proof.
  intros Hnone. split; [|split].
  - intros Hbody. unfold replaceBook. by rewrite Hbody.
  - intros payload msg Hbody Hval. unfold replaceBook. by rewrite Hbody, Hval.
  - unfold updateBook, updateBook_with.
    by rewrite (proj2 (updateBook_exists_false c store)).
Qed.

Lemma error_precedence_witness :
  let store : gmap string Book := {[ "k" := mkBook "k" "A" "B" 5 ]} in
  let malformed := mkCtx "zz" "" "" None in
  let invalid := mkCtx "zz" "" "" (Some (mkBook "" "T" "" 0)) in
  replaceBook malformed store = (NewError StatusBadRequest "invalid JSON body", store) /\
  replaceBook invalid store = (NewError StatusBadRequest "author is required", store) /\
  updateBook malformed store = (NewError StatusNotFound "book not found", store) /\
  updateBook invalid store = (NewError StatusNotFound "book not found", store).
Proof.
  intros store malformed invalid.
  destruct (error_precedence malformed store eq_refl) as (H1 & _ & H3).
  destruct (error_precedence invalid store eq_refl) as (_ & H2 & H4).
  split; [exact (H1 eq_refl)|].
  split; [exact (H2 (mkBook "" "T" "" 0) "author is required" eq_refl eq_refl)|].
  split; [exact H3|exact H4].
Defined.

(** C10: whenever [createBook], [updateBook], [replaceBook] or [deleteBook]
    answers with a 400 or 404 error, the store it leaves is the store it
    found. *)
Theorem error_leaves_store (r : Request) (store : gmap string Book) :
  isError (handle r store).1 -> (handle r store).2 = store.
Proof.
  destruct r as [c newid|c|c|c]; simpl.
  - unfold createBook. destruct (BodyParser c) as [payload|]; [|done].
    destruct (validateBookPayload payload); [done|]. simpl. tauto.
  - unfold updateBook, updateBook_with.
    destruct (updateBook_exists c store); simpl; [|done].
    destruct (BodyParser c) as [payload|]; [|done].
    destruct (updateBook_merge c payload store). simpl. tauto.
  - unfold replaceBook. destruct (BodyParser c) as [payload|]; [|done].
    destruct (validateBookPayload payload); [done|].
    destruct (store !! Params_id c); simpl; [tauto|done].
  - unfold deleteBook. destruct (store !! Params_id c); simpl; [tauto|done].
Qed.

Lemma error_leaves_store_witness :
  let store : gmap string Book := {[ "k" := mkBook "k" "A" "B" 5 ]} in
  (handle (Create (mkCtx "" "" "" (Some (mkBook "" "" "A" 0))) "u") store).2 = store /\
  (handle (PartialUpdate (mkCtx "k" "" "" None)) store).2 = store /\
  (handle (Replace (mkCtx "zz" "" "" (Some (mkBook "" "T" "A" 0)))) store).2 = store /\
  (handle (Delete (mkCtx "zz" "" "" None)) store).2 = store.
Proof.
  intros store. split; [|split; [|split]].
  - apply (error_leaves_store (Create (mkCtx "" "" "" (Some (mkBook "" "" "A" 0))) "u") store).
    simpl. left. reflexivity.
  - apply (error_leaves_store (PartialUpdate (mkCtx "k" "" "" None)) store).
    simpl. left. reflexivity.
  - apply (error_leaves_store (Replace (mkCtx "zz" "" "" (Some (mkBook "" "T" "A" 0)))) store).
    simpl. right. reflexivity.
  - apply (error_leaves_store (Delete (mkCtx "zz" "" "" None)) store).
    simpl. right. reflexivity.
Defined.

(** ** The store invariant *)

Lemma StoreInv_empty : StoreInv ∅.
Proof. apply map_Forall_empty. Qed.

Lemma StoreInv_insert (k : string) (b : Book) (store : gmap string Book) :
  BookOk k b -> StoreInv store -> StoreInv (<[k := b]> store).
Proof. intros Hb Hs. by apply map_Forall_insert_2. Qed.

Lemma StoreInv_delete (k : string) (store : gmap string Book) :
  StoreInv store -> StoreInv (delete k store).
Proof. apply map_Forall_delete. Qed.

Lemma StoreInv_lookup (k : string) (b : Book) (store : gmap string Book) :
  StoreInv store -> store !! k = Some b -> BookOk k b.
Proof. intros Hs Hk. exact (Hs k b Hk). Qed.




Lemma deleteBook_StoreInv (c : Ctx) (store : gmap string Book) :
  StoreInv store -> StoreInv (deleteBook c store).2.
Proof.
  intros Hs. unfold deleteBook.
  destruct (store !! Params_id c); [|done]. by apply StoreInv_delete.
Qed.

(** Running alone, with no other request between its two sections,
    [updateBook] keeps the invariant. *)
Lemma updateBook_StoreInv (c : Ctx) (store : gmap string Book) :
  StoreInv store -> StoreInv (updateBook c store).2.
Proof.
  intros Hs.
  destruct (store !! Params_id c) as [old|] eqn:Hold.
  - destruct (BodyParser c) as [payload|] eqn:Hbody.
    + rewrite (updateBook_found c payload store Hbody) by eauto. cbn [snd].
      destruct (updateBook_merge_fields c payload old store Hold)
        as (HID & HT & HA & HY).
      destruct (StoreInv_lookup _ _ _ Hs Hold) as (Hk & Hne & HTo & HAo).
      apply StoreInv_insert; [|done].
      unfold BookOk. rewrite HID, HT, HA.
      split; [|split; [|split]].
      * done.
      * done.
      * by destruct (decide (Title payload = "")).
      * by destruct (decide (Author payload = "")).
    + unfold updateBook, updateBook_with. rewrite Hbody.
      by destruct (updateBook_exists c store).
  - unfold updateBook, updateBook_with.
    by rewrite (proj2 (updateBook_exists_false c store)).
Qed.


(** C5 at two concurrent requests on a store that satisfies the invariant:
    [PATCH k] with a body that gives the title [X], and [DELETE k] taking
    the lock after the first section of [updateBook] has found the key and
    before its second section reads the record.  The second section reads
    the zero record and stores it under [k]: a record with an empty id and
    an empty author, under a key that differs from its id. *)
Theorem updateBook_race_breaks_StoreInv :
  let store : gmap string Book := {[ "k" := mkBook "k" "A" "B" 5 ]} in
  let patch := mkCtx "k" "" "" (Some (mkBook "" "X" "" 0)) in
  let delete_k := fun s => (deleteBook (mkCtx "k" "" "" None) s).2 in
  StoreInv store /\
  StoreInv (delete_k store) /\
  updateBook_with delete_k patch store =
    (JSONBook StatusOK (mkBook "" "X" "" 0), {[ "k" := mkBook "" "X" "" 0 ]}) /\
  ~ StoreInv (updateBook_with delete_k patch store).2.
Proof.
  intros store patch delete_k.
  assert (Hs : StoreInv store).
  { apply StoreInv_insert; [by repeat split|apply StoreInv_empty]. }
  assert (Hrun : updateBook_with delete_k patch store =
    (JSONBook StatusOK (mkBook "" "X" "" 0), {[ "k" := mkBook "" "X" "" 0 ]})).
  { vm_compute. reflexivity. }
  split; [exact Hs|]. split; [by apply deleteBook_StoreInv|].
  split; [exact Hrun|].
  rewrite Hrun. simpl. intros Hinv.
  destruct (StoreInv_lookup "k" (mkBook "" "X" "" 0) _ Hinv) as (Hk & _).
  - apply lookup_singleton_eq.
  - discriminate Hk.
Qed.

(** * Further properties of the handlers *)

(** ** Wrap-around and parsed numbers *)

Lemma wrap_bounds (z : Z) : GoInt.inRange (GoInt.wrap z).
Proof.
  unfold GoInt.inRange, GoInt.wrap, GoInt.minInt, GoInt.maxInt.
  pose proof (Z.mod_pos_bound (z + 2 ^ 63) (2 ^ 64)). lia.
Qed.

Lemma wrap_overflow (z : Z) :
  GoInt.maxInt < z <= 2 * GoInt.maxInt + 1 -> GoInt.wrap z = z - 2 ^ 64.
Proof.
  unfold GoInt.wrap, GoInt.maxInt. intros Hz.
  replace (z + 2 ^ 63) with (z + 2 ^ 63 - 2 ^ 64 + 1 * 2 ^ 64) by lia.
  rewrite Z_mod_plus_full, Z.mod_small; lia.
Qed.

Lemma digit_bounds (ch : ascii) (d : Z) :
  strconv.digit ch = Some d -> 0 <= d <= 9.
Proof.
  unfold strconv.digit.
  destruct (Z.leb_spec 48 (Z.of_N (N_of_ascii ch)));
    destruct (Z.leb_spec (Z.of_N (N_of_ascii ch)) 57); simpl;
    intros [= <-]; lia.
Qed.

Lemma parseDigits_bounds (s : string) (n : Z) :
  0 <= n <= strconv.maxUint64 ->
  0 <= (strconv.parseDigits s n).1 <= strconv.maxUint64.
Proof.
  revert n. induction s as [|ch s IH]; intros n Hn; simpl; [done|].
  destruct (strconv.digit ch) as [d|] eqn:Hd; simpl;
    [|unfold strconv.maxUint64; lia].
  apply digit_bounds in Hd.
  destruct (Z.leb_spec (strconv.maxUint64 `div` 10 + 1) n); simpl;
    [unfold strconv.maxUint64; lia|].
  destruct (Z.ltb_spec strconv.maxUint64 (n * 10 + d)); simpl;
    [unfold strconv.maxUint64; lia|].
  apply IH. lia.
Qed.

Lemma Atoi_inRange (s : string) : GoInt.inRange (strconv.Atoi s).1.
Proof.
  unfold strconv.Atoi, strconv.ParseInt, GoInt.inRange, GoInt.minInt, GoInt.maxInt.
  destruct s as [|ch s]; simpl; [lia|].
  set (neg := bool_decide (ch = "-"%char)).
  set (s1 := if bool_decide (ch = "+"%char) || neg then s else String ch s).
  assert (Hun : 0 <= (strconv.ParseUint s1).1 <= strconv.maxUint64).
  { unfold strconv.ParseUint. destruct s1; [simpl; unfold strconv.maxUint64; lia|].
    apply parseDigits_bounds. unfold strconv.maxUint64. lia. }
  destruct (strconv.ParseUint s1) as [un err]. simpl in Hun.
  destruct err as [[|]|]; simpl; try lia;
    destruct neg; simpl;
    destruct (Z.leb_spec (2 ^ 63) un); destruct (Z.ltb_spec (2 ^ 63) un);
    simpl; lia.
Qed.

(** ** Listing *)

Lemma slice_Some (books paged : list Book) (lo hi : Z) :
  slice books lo hi = Some paged ->
  0 <= lo <= hi /\ hi <= Z.of_nat (length books) /\
  paged = take (Z.to_nat (hi - lo)) (drop (Z.to_nat lo) books).
Proof.
  unfold slice.
  destruct (Z.leb_spec 0 lo); simpl; [|discriminate].
  destruct (Z.leb_spec lo hi); simpl; [|discriminate].
  destruct (Z.leb_spec hi (Z.of_nat (length books))); simpl; [|discriminate].
  intros [= <-]. split; [lia|]. split; [lia|reflexivity].
Qed.

(** Whatever the two numbers, an answer of [listPage] is a window of the
    snapshot no longer than the limit it reports. *)
Lemma listPage_answer (page limit : Z) (books data : list Book)
    (status p l total : Z) :
  GoInt.inRange limit ->
  listPage page limit books = JSONPage status data p l total ->
  status = StatusOK /\ 1 <= p /\ 1 <= l /\
  total = Z.of_nat (length books) /\
  Z.of_nat (length data) <= l /\
  exists lo n, data = take n (drop lo books).
Proof.
  intros Hlim. unfold listPage.
  set (p' := if page <? 1 then 1 else page).
  set (l' := if limit <? 1 then 50 else limit).
  set (len := Z.of_nat (length books)).
  set (s0 := GoInt.mul (GoInt.sub page 1) limit).
  assert (Hp' : 1 <= p') by (subst p'; destruct (Z.ltb_spec page 1); lia).
  assert (Hl' : 1 <= l' <= GoInt.maxInt).
  { subst l'. unfold GoInt.inRange, GoInt.maxInt in *.
    destruct (Z.ltb_spec limit 1); lia. }
  set (s1 := GoInt.mul (GoInt.sub p' 1) l').
  set (lo := if len <? s1 then len else s1).
  set (e := GoInt.add lo l').
  set (hi := if len <? e then len else e).
  destruct (slice books lo hi) as [paged|] eqn:Hslice; [|discriminate].
  intros [= <- <- <- <- <-].
  apply slice_Some in Hslice as (Hlo & Hhi & ->).
  split; [done|]. split; [done|]. split; [lia|]. split; [done|].
  split; [|eauto].
  assert (Hs1 : GoInt.inRange s1) by apply wrap_bounds.
  assert (Hlomax : lo <= GoInt.maxInt).
  { subst lo. unfold GoInt.inRange in Hs1.
    destruct (Z.ltb_spec len s1); lia. }
  rewrite length_take, length_drop.
  destruct (Z.le_gt_cases (lo + l') GoInt.maxInt) as [Hfit|Hover].
  - assert (He : e = lo + l').
    { subst e. unfold GoInt.add. apply wrap_inRange.
      unfold GoInt.inRange, GoInt.minInt. lia. }
    assert (hi <= lo + l') by (subst hi; destruct (Z.ltb_spec len e); lia).
    lia.
  - assert (He : e = lo + l' - 2 ^ 64).
    { subst e. unfold GoInt.add. apply wrap_overflow. lia. }
    assert (hi < 0).
    { subst hi. unfold GoInt.maxInt in *.
      destruct (Z.ltb_spec len e); subst len; lia. }
    lia.
Qed.

(** X1: whatever the query, when [getAllBooks] answers (it did not panic)
    the answer has status 200, a page and a limit of at least 1, the number
    of records of the store as total, at most [limit] records as data, and
    the data is a run of consecutive records of the snapshot, each of them
    a record of the store. *)
Theorem getAllBooks_answer (c : Ctx) (order : list string)
    (store : gmap string Book) (status : Z) (data : list Book)
    (page limit total : Z) :
  rangeOrder store order ->
  getAllBooks c order store = JSONPage status data page limit total ->
  status = StatusOK /\ 1 <= page /\ 1 <= limit /\
  total = Z.of_nat (size store) /\
  Z.of_nat (length data) <= limit /\
  (exists before after : list Book,
     rangeValues store order = (before ++ data ++ after)%list) /\
  (forall b, b ∈ data -> exists k, store !! k = Some b).
Proof.
  intros Hord Hrun. unfold getAllBooks in Hrun.
  apply listPage_answer in Hrun as (Hst & Hp & Hl & Htot & Hlen & lo & n & Hdata);
    [|apply Atoi_inRange].
  rewrite rangeValues_length in Htot by done.
  split; [done|]. split; [done|]. split; [done|]. split; [done|].
  split; [done|]. split.
  - exists (take lo (rangeValues store order)),
      (drop n (drop lo (rangeValues store order))).
    rewrite Hdata. by rewrite !take_drop.
  - intros b Hb. apply (rangeValues_elem store order b Hord).
    rewrite Hdata in Hb.
    apply subseteq_take in Hb. by apply subseteq_drop in Hb.
Qed.

Lemma getAllBooks_answer_witness :
  let store : gmap string Book :=
    <["c" := mkBook "c" "T3" "A3" 3]>
      (<["b" := mkBook "b" "T2" "A2" 2]> {[ "a" := mkBook "a" "T1" "A1" 1 ]}) in
  let order := elements (dom store) in
  let c := mkCtx "" "2" "1" None in
  exists b,
    getAllBooks c order store = JSONPage StatusOK [b] 2 1 3 /\
    3 = Z.of_nat (size store) /\
    exists k, store !! k = Some b.
Proof.
  intros store order c.
  assert (Hord : rangeOrder store order) by (unfold rangeOrder; reflexivity).
  destruct (getAllBooks c order store) as [| status data page limit total | | |] eqn:Hrun;
    try (vm_compute in Hrun; discriminate Hrun).
  destruct (getAllBooks_answer c order store status data page limit total Hord Hrun)
    as (Hst & _ & _ & Htot & _ & _ & Hmem).
  assert (Hval : JSONPage status data page limit total =
                 JSONPage StatusOK [mkBook "a" "T1" "A1" 1] 2 1 3).
  { rewrite <- Hrun. vm_compute. reflexivity. }
  injection Hval as -> -> -> -> ->.
  exists (mkBook "a" "T1" "A1" 1). split; [reflexivity|]. split; [exact Htot|].
  apply Hmem. left.
Defined.

(** X2: when the parsed page and limit are at least 1 and their product
    fits in an [int], [getAllBooks] answers 200 with the records of the
    snapshot from position [(page-1)*limit] on, [limit] of them or as many
    as are left: none when the page starts at or after the end. *)
Theorem getAllBooks_window (c : Ctx) (order : list string)
    (store : gmap string Book) (page limit : Z) :
  (strconv.Atoi (Query (QueryArgs_page c) "1")).1 = page ->
  (strconv.Atoi (Query (QueryArgs_limit c) "50")).1 = limit ->
  rangeOrder store order ->
  1 <= page -> 1 <= limit -> page * limit <= GoInt.maxInt ->
  let books := rangeValues store order in
  let data := take (Z.to_nat limit) (drop (Z.to_nat ((page - 1) * limit)) books) in
  getAllBooks c order store =
    JSONPage StatusOK data page limit (Z.of_nat (size store)) /\
  Z.of_nat (length data) =
    Z.max 0 (Z.min limit (Z.of_nat (size store) - (page - 1) * limit)) /\
  (Z.of_nat (size store) <= (page - 1) * limit -> data = []).
Proof.
  intros Hpage Hlimit Hord Hp Hl Hfit books data.
  assert (Hlen : length books = size store) by by apply rangeValues_length.
  split; [|split].
  - unfold getAllBooks. rewrite Hpage, Hlimit.
    rewrite listPage_in_range by done. fold books. by rewrite Hlen.
  - subst data. rewrite length_take, length_drop, Hlen. nia.
  - intros Hend. subst data. rewrite drop_ge; [by rewrite take_nil|].
    rewrite Hlen. nia.
Qed.

Lemma getAllBooks_window_witness :
  let store : gmap string Book :=
    <["c" := mkBook "c" "T3" "A3" 3]>
      (<["b" := mkBook "b" "T2" "A2" 2]> {[ "a" := mkBook "a" "T1" "A1" 1 ]}) in
  let order := elements (dom store) in
  getAllBooks (mkCtx "" "2" "2" None) order store =
    JSONPage StatusOK (take 2 (drop 2 (rangeValues store order))) 2 2 3 /\
  getAllBooks (mkCtx "" "3" "2" None) order store = JSONPage StatusOK [] 3 2 3.
Proof.
  intros store order.
  assert (Hord : rangeOrder store order) by (unfold rangeOrder; reflexivity).
  split.
  - apply (getAllBooks_window (mkCtx "" "2" "2" None) order store 2 2);
      [reflexivity|reflexivity|exact Hord|lia|lia|unfold GoInt.maxInt; lia].
  - destruct (getAllBooks_window (mkCtx "" "3" "2" None) order store 3 2)
      as (Hrun & _ & Hempty);
      [reflexivity|reflexivity|exact Hord|lia|lia|unfold GoInt.maxInt; lia|].
    rewrite Hrun, Hempty; [reflexivity|].
    change (size store) with 3%nat. lia.
Defined.

(** X3: no record is lost between pages.  With a limit of at least 1, the
    record at position [i] of the snapshot is on page [i / limit + 1], at
    position [i mod limit] of its data. *)
Theorem getAllBooks_page_of_index (c : Ctx) (order : list string)
    (store : gmap string Book) (limit : Z) (i : nat) (b : Book) :
  (strconv.Atoi (Query (QueryArgs_limit c) "50")).1 = limit ->
  (strconv.Atoi (Query (QueryArgs_page c) "1")).1 = Z.of_nat i / limit + 1 ->
  1 <= limit ->
  Z.of_nat (length (rangeValues store order)) + limit <= GoInt.maxInt ->
  rangeValues store order !! i = Some b ->
  exists data total,
    getAllBooks c order store =
      JSONPage StatusOK data (Z.of_nat i / limit + 1) limit total /\
    data !! Z.to_nat (Z.of_nat i mod limit) = Some b.
Proof.
  intros Hlimit Hpage Hl Hfit Hb.
  pose proof (lookup_lt_Some _ _ _ Hb) as Hi.
  pose proof (Z.div_mod (Z.of_nat i) limit ltac:(lia)) as Hdm.
  pose proof (Z.mod_pos_bound (Z.of_nat i) limit ltac:(lia)) as Hmod.
  assert (Hq : 0 <= Z.of_nat i / limit) by (apply Z.div_pos; lia).
  unfold getAllBooks. rewrite Hpage, Hlimit.
  rewrite listPage_in_range by nia.
  eexists _, _. split; [reflexivity|].
  rewrite lookup_take_lt by lia. rewrite lookup_drop.
  rewrite <- Hb. f_equal. nia.
Qed.

Lemma getAllBooks_page_of_index_witness :
  let store : gmap string Book :=
    <["c" := mkBook "c" "T3" "A3" 3]>
      (<["b" := mkBook "b" "T2" "A2" 2]> {[ "a" := mkBook "a" "T1" "A1" 1 ]}) in
  let order := ["a"; "b"; "c"] in
  exists data total,
    getAllBooks (mkCtx "" "2" "2" None) order store =
      JSONPage StatusOK data 2 2 total /\
    data !! 0%nat = Some (mkBook "c" "T3" "A3" 3).
Proof.
  intros store order.
  exact (getAllBooks_page_of_index (mkCtx "" "2" "2" None) order store 2 2
           (mkBook "c" "T3" "A3" 3) eq_refl eq_refl ltac:(lia)
           ltac:(vm_compute; discriminate) eq_refl).
Defined.

(** ** Single records *)

(** X4: on a store that satisfies the invariant, [getBookByID] answers 404
    "book not found" exactly when the key is absent, and otherwise 200 with
    the stored record, whose [id] is the id asked for and whose title and
    author are not empty. *)
Theorem getBookByID_answer (c : Ctx) (store : gmap string Book) :
  StoreInv store ->
  (store !! Params_id c = None /\
   getBookByID c store = NewError StatusNotFound "book not found") \/
  (exists b,
     store !! Params_id c = Some b /\
     getBookByID c store = JSONBook StatusOK b /\
     ID b = Params_id c /\ Title b <> "" /\ Author b <> "").
Proof.
  intros Hinv. unfold getBookByID.
  destruct (store !! Params_id c) as [b|] eqn:Hb; [right|by left].
  destruct (StoreInv_lookup _ _ _ Hinv Hb) as (Hid & _ & HT & HA).
  by exists b.
Qed.

Lemma getBookByID_answer_witness :
  let store : gmap string Book := {[ "k" := mkBook "k" "A" "B" 5 ]} in
  getBookByID (mkCtx "k" "" "" None) store = JSONBook StatusOK (mkBook "k" "A" "B" 5) /\
  getBookByID (mkCtx "zz" "" "" None) store = NewError StatusNotFound "book not found".
Proof.
  intros store.
  assert (Hinv : StoreInv store).
  { apply StoreInv_insert; [by repeat split|apply StoreInv_empty]. }
  split.
  - destruct (getBookByID_answer (mkCtx "k" "" "" None) store Hinv)
      as [[Hnone _]|(b & Hb & Hrun & _)].
    + discriminate Hnone.
    + rewrite Hrun. f_equal. change (Some (mkBook "k" "A" "B" 5) = Some b) in Hb.
      congruence.
  - destruct (getBookByID_answer (mkCtx "zz" "" "" None) store Hinv)
      as [[_ Hrun]|(b & Hb & _)].
    + exact Hrun.
    + discriminate Hb.
Defined.

(** X5: a valid body created under an id that is not yet a key adds exactly
    one record: the store grows by one, its keys are the old keys and the
    new id, and every record it held is still there unchanged. *)
Theorem createBook_fresh (c : Ctx) (payload : Book) (newid : string)
    (store : gmap string Book) :
  BodyParser c = Some payload ->
  validateBookPayload payload = None ->
  store !! newid = None ->
  let store' := (createBook c newid store).2 in
  size store' = S (size store) /\
  dom store' = {[newid]} ∪ dom store /\
  (forall k b, store !! k = Some b -> store' !! k = Some b).
Proof.
  intros Hbody Hval Hfresh store'. subst store'.
  unfold createBook. rewrite Hbody, Hval. simpl.
  split; [by apply map_size_insert_None|].
  split; [apply dom_insert_L|].
  intros k b Hk. rewrite lookup_insert_ne; [done|]. congruence.
Qed.

Lemma createBook_fresh_witness :
  let store : gmap string Book := {[ "k" := mkBook "k" "A" "B" 5 ]} in
  let c := mkCtx "" "" "" (Some (mkBook "" "T" "U" 2020)) in
  size (createBook c "u1" store).2 = 2%nat /\
  (createBook c "u1" store).2 !! "k" = Some (mkBook "k" "A" "B" 5).
Proof.
  intros store c.
  destruct (createBook_fresh c (mkBook "" "T" "U" 2020) "u1" store
              eq_refl eq_refl eq_refl) as (Hsize & _ & Hkeep).
  split; [exact Hsize|]. apply Hkeep. reflexivity.
Defined.

(** X6: [createBook] does not test the generated id against the keys of the
    store.  Under an id that is already a key, a valid body is still
    answered with 201, the record stored under that id is replaced by the
    new one, and the store does not grow. *)
Theorem createBook_collision (c : Ctx) (payload old : Book) (newid : string)
    (store : gmap string Book) :
  BodyParser c = Some payload ->
  validateBookPayload payload = None ->
  store !! newid = Some old ->
  createBook c newid store =
    (JSONBook StatusCreated (with_ID payload newid),
     <[newid := with_ID payload newid]> store) /\
  (createBook c newid store).2 !! newid = Some (with_ID payload newid) /\
  size (createBook c newid store).2 = size store.
Proof.
  intros Hbody Hval Hold.
  assert (Hrun : createBook c newid store =
    (JSONBook StatusCreated (with_ID payload newid),
     <[newid := with_ID payload newid]> store)).
  { unfold createBook. by rewrite Hbody, Hval. }
  rewrite Hrun. simpl. split; [done|].
  split; [apply lookup_insert_eq|].
  by apply map_size_insert_Some.
Qed.

Lemma createBook_collision_witness :
  let store : gmap string Book := {[ "k" := mkBook "k" "A" "B" 5 ]} in
  let c := mkCtx "" "" "" (Some (mkBook "" "T" "U" 2020)) in
  (createBook c "k" store).2 !! "k" = Some (mkBook "k" "T" "U" 2020) /\
  size (createBook c "k" store).2 = 1%nat.
Proof.
  intros store c.
  destruct (createBook_collision c (mkBook "" "T" "U" 2020) (mkBook "k" "A" "B" 5)
              "k" store eq_refl eq_refl eq_refl) as (_ & Hnew & Hsize).
  split; [exact Hnew|exact Hsize].
Defined.

(** X7: the [id] field of a request body is never used: [createBook],
    [updateBook] and [replaceBook] answer the same and leave the same store
    whatever [id] the body carries. *)
Theorem body_ID_ignored (id page limit x newid : string) (payload : Book)
    (store : gmap string Book) :
  let c := mkCtx id page limit (Some payload) in
  let c' := mkCtx id page limit (Some (with_ID payload x)) in
  createBook c' newid store = createBook c newid store /\
  updateBook c' store = updateBook c store /\
  replaceBook c' store = replaceBook c store.
Proof.
  intros c c'. split; [|split].
  - unfold createBook, validateBookPayload. simpl.
    destruct (decide (Title payload = "")); [done|].
    by destruct (decide (Author payload = "")).
  - unfold updateBook, updateBook_with, updateBook_exists. simpl.
    destruct (bool_decide (is_Some (store !! id))); [|done]. simpl.
    unfold updateBook_merge. simpl. reflexivity.
  - unfold replaceBook, validateBookPayload. simpl.
    destruct (decide (Title payload = "")); [done|].
    by destruct (decide (Author payload = "")).
Qed.

(** X8: the keys of the store after a request.  [createBook] adds the new
    id when it answers 201 and nothing otherwise, [updateBook] and
    [replaceBook] never add or remove a key, and [deleteBook] removes the
    id asked for and no other key. *)
Theorem handle_dom (r : Request) (store : gmap string Book) :
  dom (handle r store).2 =
    match r with
    | Create c newid =>
        match (handle r store).1 with
        | JSONBook _ _ => {[newid]} ∪ dom store
        | _ => dom store
        end
    | PartialUpdate c => dom store
    | Replace c => dom store
    | Delete c => dom store ∖ {[Params_id c]}
    end.
Proof.
  destruct r as [c newid|c|c|c]; simpl.
  - unfold createBook. destruct (BodyParser c) as [payload|]; [|done].
    destruct (validateBookPayload payload); [done|]. simpl.
    apply dom_insert_L.
  - destruct (store !! Params_id c) as [old|] eqn:Hold.
    + destruct (BodyParser c) as [payload|] eqn:Hbody.
      * rewrite (updateBook_found c payload store Hbody) by eauto. cbn [snd].
        apply dom_insert_lookup_L. eauto.
      * unfold updateBook, updateBook_with. rewrite Hbody.
        by destruct (updateBook_exists c store).
    + unfold updateBook, updateBook_with.
      by rewrite (proj2 (updateBook_exists_false c store)).
  - unfold replaceBook. destruct (BodyParser c) as [payload|]; [|done].
    destruct (validateBookPayload payload); [done|].
    destruct (store !! Params_id c) as [old|] eqn:Hold; [|done]. simpl.
    apply dom_insert_lookup_L. eauto.
  - unfold deleteBook. destruct (store !! Params_id c) as [old|] eqn:Hold; simpl.
    + apply dom_delete_L.
    + apply not_elem_of_dom in Hold. symmetry.
      apply difference_disjoint_L. by apply disjoint_singleton_r.
Qed.

(** ** How the handlers compose *)

Lemma updateBook_merge_again (c : Ctx) (payload old : Book)
    (store : gmap string Book) :
  store !! Params_id c = Some old ->
  let merged := (updateBook_merge c payload store).1 in
  (updateBook_merge c payload (<[Params_id c := merged]> store)).1 = merged.
Proof.
  intros Hold. unfold updateBook_merge. rewrite lookup_insert_eq, Hold. simpl.
  destruct old as [i t a y].
  destruct (decide (Title payload = "")), (decide (Author payload = "")),
    (decide (Year payload = 0)); reflexivity.
Qed.

(** X9: [updateBook] is idempotent: the same partial update applied to the
    store it left gives the same answer and the same store, whether the
    first one succeeded or not. *)
Theorem updateBook_idempotent (c : Ctx) (store : gmap string Book) :
  updateBook c (updateBook c store).2 = updateBook c store.
Proof.
  destruct (store !! Params_id c) as [old|] eqn:Hold.
  - destruct (BodyParser c) as [payload|] eqn:Hbody.
    + rewrite (updateBook_found c payload store Hbody) by eauto. cbn [snd].
      rewrite (updateBook_found c payload _ Hbody)
        by (rewrite lookup_insert_eq; eauto).
      rewrite (updateBook_merge_again c payload old store Hold).
      by rewrite insert_insert_eq.
    + unfold updateBook, updateBook_with. rewrite Hbody.
      destruct (updateBook_exists c store) eqn:Hex; simpl; by rewrite Hex.
  - unfold updateBook, updateBook_with.
    rewrite (proj2 (updateBook_exists_false c store)) by done. simpl.
    by rewrite (proj2 (updateBook_exists_false c store)).
Qed.

(** X10: a partial update whose body gives no title, no author and no year
    (or a year of 0) answers 200 with the stored record and leaves the store
    exactly as it was. *)
Theorem updateBook_empty_body (c : Ctx) (payload old : Book)
    (store : gmap string Book) :
  BodyParser c = Some payload ->
  Title payload = "" -> Author payload = "" -> Year payload = 0 ->
  store !! Params_id c = Some old ->
  updateBook c store = (JSONBook StatusOK old, store).
Proof.
  intros Hbody HT HA HY Hold.
  rewrite (updateBook_found c payload store Hbody) by eauto.
  assert (Hm : (updateBook_merge c payload store).1 = old).
  { unfold updateBook_merge. rewrite Hold, HT, HA, HY. reflexivity. }
  rewrite Hm. by rewrite insert_id.
Qed.

Lemma updateBook_empty_body_witness :
  let store : gmap string Book := {[ "k" := mkBook "k" "A" "B" 5 ]} in
  updateBook (mkCtx "k" "" "" (Some (mkBook "ignored" "" "" 0))) store =
    (JSONBook StatusOK (mkBook "k" "A" "B" 5), store).
Proof.
  intros store.
  exact (updateBook_empty_body (mkCtx "k" "" "" (Some (mkBook "ignored" "" "" 0)))
           (mkBook "ignored" "" "" 0) (mkBook "k" "A" "B" 5) store
           eq_refl eq_refl eq_refl eq_refl eq_refl).
Defined.

(** X11: a full replace with a valid body wipes out what an earlier partial
    update of the same id did: the answer and the store are those of the
    replace alone. *)
Theorem replaceBook_after_updateBook (c c' : Ctx) (payload : Book)
    (store : gmap string Book) :
  Params_id c' = Params_id c ->
  BodyParser c = Some payload ->
  validateBookPayload payload = None ->
  replaceBook c (updateBook c' store).2 = replaceBook c store.
Proof.
  intros Hid Hbody Hval.
  destruct (store !! Params_id c') as [old|] eqn:Hold.
  - destruct (BodyParser c') as [patch|] eqn:Hpatch.
    + rewrite (updateBook_found c' patch store Hpatch) by eauto. cbn [snd].
      unfold replaceBook. rewrite Hbody, Hval, Hid, lookup_insert_eq.
      rewrite Hid in Hold. rewrite Hold. by rewrite insert_insert_eq.
    + unfold updateBook, updateBook_with. rewrite Hpatch.
      by destruct (updateBook_exists c' store).
  - unfold updateBook, updateBook_with.
    by rewrite (proj2 (updateBook_exists_false c' store)).
Qed.

Lemma replaceBook_after_updateBook_witness :
  let store : gmap string Book := {[ "k" := mkBook "k" "A" "B" 5 ]} in
  let patch := mkCtx "k" "" "" (Some (mkBook "" "X" "" 9)) in
  let put := mkCtx "k" "" "" (Some (mkBook "" "T" "U" 0)) in
  replaceBook put (updateBook patch store).2 =
    (JSONBook StatusOK (mkBook "k" "T" "U" 0), {[ "k" := mkBook "k" "T" "U" 0 ]}).
Proof.
  intros store patch put.
  rewrite (replaceBook_after_updateBook put patch (mkBook "" "T" "U" 0) store
             eq_refl eq_refl eq_refl).
  vm_compute. reflexivity.
Defined.

(** X12: a second [deleteBook] of the same id always answers 404 "book not
    found" and changes nothing, whatever the first one answered. *)
Theorem deleteBook_twice (c : Ctx) (store : gmap string Book) :
  deleteBook c (deleteBook c store).2 =
    (NewError StatusNotFound "book not found", (deleteBook c store).2).
Proof.
  unfold deleteBook at 2 3.
  destruct (store !! Params_id c) as [old|] eqn:Hold; simpl.
  - unfold deleteBook. by rewrite lookup_delete_eq.
  - unfold deleteBook. by rewrite Hold.
Qed.

(** X13: creating a record under an id that is not yet a key and then
    deleting that id answers 204 and gives back the store as it was before
    the creation. *)
Theorem deleteBook_after_createBook (c c' : Ctx) (payload : Book)
    (newid : string) (store : gmap string Book) :
  BodyParser c = Some payload ->
  validateBookPayload payload = None ->
  store !! newid = None ->
  Params_id c' = newid ->
  deleteBook c' (createBook c newid store).2 =
    (SendStatus StatusNoContent, store).
Proof.
  intros Hbody Hval Hfresh Hid.
  unfold createBook. rewrite Hbody, Hval. simpl.
  unfold deleteBook. rewrite Hid, lookup_insert_eq.
  rewrite delete_insert_eq. by rewrite delete_id.
Qed.

Lemma deleteBook_after_createBook_witness :
  let store : gmap string Book := {[ "k" := mkBook "k" "A" "B" 5 ]} in
  deleteBook (mkCtx "u1" "" "" None)
    (createBook (mkCtx "" "" "" (Some (mkBook "" "T" "U" 2020))) "u1" store).2 =
    (SendStatus StatusNoContent, store).
Proof.
  intros store.
  exact (deleteBook_after_createBook
           (mkCtx "" "" "" (Some (mkBook "" "T" "U" 2020))) (mkCtx "u1" "" "" None)
           (mkBook "" "T" "U" 2020) "u1" store eq_refl eq_refl eq_refl eq_refl).
Defined.

(** ** Sequences of requests *)








(** ** The two sections of [updateBook] *)

(** X16: what other requests do between the two sections of [updateBook]
    is harmless as long as the key is still there when the second section
    runs: the handler then answers and stores exactly what it would running
    alone on the store it finds at that moment, and keeps the invariant
    when that store satisfies it. *)
Theorem updateBook_with_key_kept
    (between : gmap string Book -> gmap string Book) (c : Ctx)
    (payload : Book) (store : gmap string Book) :
  BodyParser c = Some payload ->
  is_Some (store !! Params_id c) ->
  is_Some (between store !! Params_id c) ->
  updateBook_with between c store = updateBook c (between store) /\
  (StoreInv (between store) ->
   StoreInv (updateBook_with between c store).2).
Proof.
  intros Hbody Hex Hkept.
  assert (Heq : updateBook_with between c store = updateBook c (between store)).
  { unfold updateBook, updateBook_with.
    rewrite (proj2 (updateBook_exists_true c store)) by done.
    rewrite (proj2 (updateBook_exists_true c (between store))) by done.
    simpl. by rewrite Hbody. }
  split; [exact Heq|]. rewrite Heq. apply updateBook_StoreInv.
Qed.

Lemma updateBook_with_key_kept_witness :
  let store : gmap string Book := {[ "k" := mkBook "k" "A" "B" 5 ]} in
  let patch := mkCtx "k" "" "" (Some (mkBook "" "X" "" 0)) in
  let put := fun s => (replaceBook (mkCtx "k" "" "" (Some (mkBook "" "T" "U" 7))) s).2 in
  updateBook_with put patch store =
    (JSONBook StatusOK (mkBook "k" "X" "U" 7), {[ "k" := mkBook "k" "X" "U" 7 ]}).
Proof.
  intros store patch put.
  destruct (updateBook_with_key_kept put patch (mkBook "" "X" "" 0) store eq_refl)
    as [Heq _].
  - exists (mkBook "k" "A" "B" 5). reflexivity.
  - exists (mkBook "k" "T" "U" 7). reflexivity.
  - rewrite Heq. vm_compute. reflexivity.
Defined.

(** ** Statuses and messages *)

(** X17: what each route can send.  The list route sends 200, or 500 with
    the fixed message after a panic, and never a 4xx; get sends 200 or 404;
    create 201 or 400; partial update and replace 200, 400 or 404; delete
    204 or 404.  Every 404 carries "book not found" and every 400 one of
    "invalid JSON body", "title is required", "author is required". *)
Theorem route_statuses (c : Ctx) (order : list string) (newid : string)
    (store : gmap string Book) :
  let notFound := (StatusNotFound, Some "book not found") in
  let badRequest := fun w : Z * option string =>
    w = (StatusBadRequest, Some "invalid JSON body") \/
    w = (StatusBadRequest, Some "title is required") \/
    w = (StatusBadRequest, Some "author is required") in
  (wire (getAllBooks c order store) = (StatusOK, None) \/
   wire (getAllBooks c order store) =
     (StatusInternalServerError, Some "internal server error")) /\
  (wire (getBookByID c store) = (StatusOK, None) \/
   wire (getBookByID c store) = notFound) /\
  (wire (createBook c newid store).1 = (StatusCreated, None) \/
   badRequest (wire (createBook c newid store).1)) /\
  (wire (updateBook c store).1 = (StatusOK, None) \/
   wire (updateBook c store).1 = notFound \/
   wire (updateBook c store).1 = (StatusBadRequest, Some "invalid JSON body")) /\
  (wire (replaceBook c store).1 = (StatusOK, None) \/
   wire (replaceBook c store).1 = notFound \/
   badRequest (wire (replaceBook c store).1)) /\
  (wire (deleteBook c store).1 = (StatusNoContent, None) \/
   wire (deleteBook c store).1 = notFound).
Proof.
  intros notFound badRequest. subst notFound badRequest. cbv beta.
  split; [|split; [|split; [|split; [|split]]]].
  - unfold getAllBooks.
    destruct (listPage_outcome (strconv.Atoi (Query (QueryArgs_page c) "1")).1
                (strconv.Atoi (Query (QueryArgs_limit c) "50")).1
                (rangeValues store order)) as [->|[data ->]]; [by right|by left].
  - unfold getBookByID. destruct (store !! Params_id c); [by left|by right].
  - unfold createBook. destruct (BodyParser c) as [payload|]; [|right; by left].
    destruct (validateBookPayload payload) as [msg|] eqn:Hval; [|by left].
    right. destruct (validateBookPayload_Some _ _ Hval) as [[_ ->]|(_ & _ & ->)];
      simpl; auto.
  - unfold updateBook, updateBook_with.
    destruct (updateBook_exists c store); simpl; [|right; by left].
    destruct (BodyParser c) as [payload|]; [|right; by right].
    destruct (updateBook_merge c payload store). by left.
  - unfold replaceBook.
    destruct (BodyParser c) as [payload|]; [|right; right; by left].
    destruct (validateBookPayload payload) as [msg|] eqn:Hval.
    + right; right.
      destruct (validateBookPayload_Some _ _ Hval) as [[_ ->]|(_ & _ & ->)];
        simpl; auto.
    + destruct (store !! Params_id c); [by left|right; by left].
  - unfold deleteBook. destruct (store !! Params_id c); [by left|by right].
Qed.

(** ** Seeding *)

(** X18: with two different generated ids, [seedData] makes both books
    retrievable under their ids, touches no other key, and leaves exactly
    two records when it starts from the empty store, as [main] does. *)
Theorem seedData_books (id1 id2 : string) (store : gmap string Book) :
  id1 <> id2 ->
  let seeded := seedData id1 id2 store in
  (forall c, Params_id c = id1 ->
     getBookByID c seeded =
       JSONBook StatusOK (mkBook id1 "Clean Architecture" "Robert C. Martin" 2017)) /\
  (forall c, Params_id c = id2 ->
     getBookByID c seeded =
       JSONBook StatusOK
         (mkBook id2 "The Go Programming Language" "Alan A. A. Donovan" 2015)) /\
  (forall k, k <> id1 -> k <> id2 -> seeded !! k = store !! k) /\
  (store = ∅ -> size seeded = 2%nat).
Proof.
  intros Hne seeded. subst seeded. unfold seedData. simpl.
  split; [|split; [|split]].
  - intros c Hc. unfold getBookByID. rewrite Hc.
    rewrite lookup_insert_ne by done. by rewrite lookup_insert_eq.
  - intros c Hc. unfold getBookByID. rewrite Hc. by rewrite lookup_insert_eq.
  - intros k Hk1 Hk2. by rewrite !lookup_insert_ne.
  - intros ->. rewrite map_size_insert_None.
    + by rewrite map_size_insert_None, map_size_empty.
    + by rewrite lookup_insert_ne.
Qed.

Lemma seedData_books_witness :
  getBookByID (mkCtx "u1" "" "" None) (seedData "u1" "u2" ∅) =
    JSONBook StatusOK (mkBook "u1" "Clean Architecture" "Robert C. Martin" 2017) /\
  size (seedData "u1" "u2" ∅) = 2%nat.
Proof.
  destruct (seedData_books "u1" "u2" ∅) as (H1 & _ & _ & Hsize); [done|].
  split; [apply H1; reflexivity|by apply Hsize].
Defined.

(** ** The first page *)

(** X19: a request for the first page cannot panic.  When the parsed page
    is 1 or less (absent, not a number, zero or negative), [getAllBooks]
    answers 200 with page 1 and the first records of the snapshot, up to
    the effective limit, whatever the limit given. *)
Theorem getAllBooks_first_page (c : Ctx) (order : list string)
    (store : gmap string Book) :
  (strconv.Atoi (Query (QueryArgs_page c) "1")).1 <= 1 ->
  rangeOrder store order ->
  exists limit,
    1 <= limit /\
    getAllBooks c order store =
      JSONPage StatusOK (take (Z.to_nat limit) (rangeValues store order))
        1 limit (Z.of_nat (size store)).
Proof.
  intros Hpage Hord. unfold getAllBooks.
  set (page := (strconv.Atoi (Query (QueryArgs_page c) "1")).1) in *.
  set (limit := (strconv.Atoi (Query (QueryArgs_limit c) "50")).1).
  pose proof (Atoi_inRange (Query (QueryArgs_limit c) "50")) as Hrange.
  fold limit in Hrange. unfold GoInt.inRange in Hrange.
  set (l := if limit <? 1 then 50 else limit).
  assert (Hl : 1 <= l <= GoInt.maxInt).
  { subst l. unfold GoInt.maxInt. destruct (Z.ltb_spec limit 1); [lia|].
    unfold GoInt.maxInt in Hrange. lia. }
  assert (Heq : listPage page limit (rangeValues store order) =
                listPage 1 l (rangeValues store order)).
  { unfold listPage. fold l.
    assert ((if page <? 1 then 1 else page) = 1) as ->
      by (destruct (Z.ltb_spec page 1); lia).
    destruct (Z.ltb_spec l 1); [lia|]. reflexivity. }
  exists l. split; [lia|].
  rewrite Heq, listPage_in_range by lia.
  by rewrite rangeValues_length.
Qed.

Lemma getAllBooks_first_page_witness :
  let store : gmap string Book :=
    <["b" := mkBook "b" "T2" "A2" 2]> {[ "a" := mkBook "a" "T1" "A1" 1 ]} in
  let order := elements (dom store) in
  exists limit,
    1 <= limit /\
    getAllBooks (mkCtx "" "-3" "9223372036854775807" None) order store =
      JSONPage StatusOK (take (Z.to_nat limit) (rangeValues store order))
        1 limit 2.
Proof.
  intros store order.
  apply (getAllBooks_first_page (mkCtx "" "-3" "9223372036854775807" None)
           order store).
  - vm_compute. discriminate.
  - unfold rangeOrder. reflexivity.
Defined.
